(** * EcoTrack: the dashboard rollups, anomaly scan and forecast, and the
      geo query of the aggregation script, embedded from

      - [src/dashboard.py]            (rollups, emission, anomaly scan, forecast)
      - [src/aggregation_queries.py]  (the [$geoNear] query and its handler)

    A telemetry frame is the list of its rows in index order.  The [value]
    column is float64 in the source; it is embedded as Rocq's primitive
    binary64 [float], whose operations are the IEEE-754 ones the Python
    interpreter and numpy use.  The rollups that only add values are written
    over any carrier with a zero and an addition, so that the same code can
    also be read over exact numbers.

    Library calls are embedded by what they compute on a well-formed frame
    (every row has all its columns, values are numbers, timestamps parse):

    - a [sum] (of a series, of an array, of a group) adds in index order
      starting from zero; the libraries may associate a long sum differently
      (pairwise or compensated), which can move the last bits of a float
      result and nothing else;
    - [mean] is that sum divided by the length, so the empty mean is 0/0;
    - [std(ddof=0)] is the square root of the mean squared deviation;
    - [groupby] yields its groups by ascending key, the rows of a group in
      frame order;
    - [rolling(window, min_periods).mean()] is the mean of each trailing
      window;
    - [sort_values] is a sort on one column; which rows of equal key come
      first is left to the library and no statement below depends on it. *)

From Stdlib Require Import Floats Uint63 ZArith PArith List String Bool Lia.
From Stdlib Require Import Sorting.Sorted Sorting.Permutation.
Import ListNotations.

#[local] Set Warnings "-inexact-float".
#[local] Open Scope Z_scope.

(* ================================================================== *)
(** * Data model *)
(* ================================================================== *)

(** [pd.to_datetime] value of a row: the calendar day (as a day number) and
    the time within the day.  [ts.dt.date] is [dt_date]. *)
Record Timestamp : Type := mkTimestamp {
  dt_date : Z;
  dt_time : Z
}.

(** A telemetry document as [telemetry_df] returns it: the stored fields and
    the parsed [ts] column. *)
Record reading (V : Type) : Type := mkReading {
  timestamp  : string;
  asset_id   : Z;
  site_id    : Z;
  value_type : string;
  value      : V;
  ts         : Timestamp
}.

Arguments mkReading {V} _ _ _ _ _ _.
Arguments timestamp {V} _.
Arguments asset_id {V} _.
Arguments site_id {V} _.
Arguments value_type {V} _.
Arguments value {V} _.
Arguments ts {V} _.

Definition DataFrame (V : Type) : Type := list (reading V).

(** [df.empty] *)
Definition empty {A : Type} (df : list A) : bool :=
  match df with
  | [] => true
  | _ :: _ => false
  end.

Definition electricity_kWh : string := "electricity_kWh".

(** The row mask [df["value_type"] == "electricity_kWh"]. *)
Definition is_electricity {V : Type} (r : reading V) : bool :=
  String.eqb (value_type r) electricity_kWh.

(* ================================================================== *)
(** * Value arithmetic *)
(* ================================================================== *)

(** What the rollups need of the value column: a zero and an addition. *)
Class Additive (V : Type) : Type := {
  zero : V;
  add  : V -> V -> V
}.

(** Addition without rounding. *)
Class ExactAdditive (V : Type) `{Additive V} : Prop := {
  add_assoc  : forall a b c : V, add a (add b c) = add (add a b) c;
  add_comm   : forall a b : V, add a b = add b a;
  add_zero_l : forall a : V, add zero a = a
}.

(** The arithmetic of the source: binary64. *)
#[export] Instance float_Additive : Additive float := {
  zero := 0%float;
  add  := PrimFloat.add
}.

(** Exact integers, e.g. readings counted in whole watt-hours. *)
#[export] Instance Z_Additive : Additive Z := {
  zero := 0;
  add  := Z.add
}.

#[export] Instance Z_ExactAdditive : ExactAdditive Z.
Proof. constructor; simpl; intros; lia. Qed.

(** [float(n)] for a length [n]. *)
Definition float_of_nat (n : nat) : float :=
  PrimFloat.of_uint63 (Uint63.of_Z (Z.of_nat n)).

(* ================================================================== *)
(** * pandas and numpy primitives *)
(* ================================================================== *)

Section Series.
Context {V : Type} `{Additive V}.

(** [Series.sum()]: zero for the empty series. *)
Definition Series_sum (xs : list V) : V := fold_left add xs zero.

(** Insertion of a group key into the ascending list of distinct keys. *)
Fixpoint insert_key (k : Z) (ks : list Z) : list Z :=
  match ks with
  | [] => [k]
  | k' :: ks' =>
      if k <? k' then k :: ks
      else if k =? k' then ks
      else k' :: insert_key k ks'
  end.

(** The distinct keys of a column, ascending: the order in which
    [groupby] (with its default [sort=True]) yields its groups. *)
Definition group_keys (ks : list Z) : list Z := fold_right insert_key [] ks.

(** [df.groupby(key)]: each key with its rows, in frame order. *)
Definition groupby {R : Type} (key : R -> Z) (df : list R) : list (Z * list R) :=
  map (fun k => (k, filter (fun r => key r =? k) df)) (group_keys (map key df)).

(** [df.groupby(key)["value"].sum().reset_index()] *)
Definition groupby_sum (key : reading V -> Z) (df : DataFrame V) : list (Z * V) :=
  map (fun kg => (fst kg, Series_sum (map value (snd kg)))) (groupby key df).
End Series.

(** [sort_values(by)] through a "goes before" test on the sort column. *)
Section SortValues.
Context {R : Type} (before : R -> R -> bool).

Fixpoint sort_insert (x : R) (l : list R) : list R :=
  match l with
  | [] => [x]
  | y :: l' => if before x y then x :: l else y :: sort_insert x l'
  end.

Definition sort_values (l : list R) : list R := fold_right sort_insert [] l.
End SortValues.

(** Ascending sort on a key column. *)
Definition ascending {R : Type} (key : R -> Z) (a b : R) : bool := key a <=? key b.

(** Descending sort on a float column; pandas puts missing values last
    ([na_position='last']). *)
Definition descending {R : Type} (key : R -> float) (a b : R) : bool :=
  PrimFloat.is_nan (key b) || PrimFloat.leb (key b) (key a).

(* ================================================================== *)
(** * dashboard.py: rollups *)
(* ================================================================== *)

Section Rollups.
Context {V : Type} `{Additive V}.

(** [calc_total_kwh(df)] *)
Definition calc_total_kwh (df : DataFrame V) : V :=
  if empty df then zero
  else Series_sum (map value (filter is_electricity df)).

(** A row of the per-day frame: columns [date] and [daily_kWh]. *)
Record daily_row : Type := mkDaily { date : Z; daily_kWh : V }.

(** [daily_aggregates(df)] *)
Definition daily_aggregates (df : DataFrame V) : list daily_row :=
  if empty df then []
  else
    let d := filter is_electricity df in
    let agg := map (fun kv => mkDaily (fst kv) (snd kv))
                   (groupby_sum (fun r => dt_date (ts r)) d) in
    sort_values (ascending date) agg.

(** A row of the per-asset frame: columns [asset_id] and [total_kWh]. *)
Record asset_row : Type := mkAsset { asset : Z; total_kWh : V }.

(** The grouping and summing of [asset_aggregates], before its sort. *)
Definition asset_sums (df : DataFrame V) : list asset_row :=
  map (fun kv => mkAsset (fst kv) (snd kv))
      (groupby_sum asset_id (filter is_electricity df)).
End Rollups.

Arguments daily_row V : clear implicits.
Arguments asset_row V : clear implicits.

(** [asset_aggregates(df)] *)
Definition asset_aggregates (df : DataFrame float) : list (asset_row float) :=
  if empty df then []
  else sort_values (descending total_kWh) (asset_sums df).

(** [calc_emissions_kg(total_kwh, factor=0.82)] *)
Definition factor_default : float := 0.82%float.

Definition calc_emissions_kg (total_kwh : float) (factor : float) : float :=
  (total_kwh * factor)%float.

(** [Series.mean()] and [ndarray.mean()]: the sum over the length; the
    empty series gives 0/0, not-a-number. *)
Definition Series_mean (xs : list float) : float :=
  (Series_sum xs / float_of_nat (List.length xs))%float.

(** The "Average reading" metric of the KPI row. *)
Definition avg_kwh (df : DataFrame float) : float :=
  if empty df then 0%float
  else Series_mean (map value (filter is_electricity df)).

(* ================================================================== *)
(** * dashboard.py: anomaly scan *)
(* ================================================================== *)

(** [arr.mean()] *)
Definition np_mean (arr : list float) : float := Series_mean arr.

(** [arr.std(ddof=0)]: numpy subtracts the mean, squares, averages and takes
    the square root. *)
Definition np_std (arr : list float) : float :=
  let m := np_mean arr in
  PrimFloat.sqrt (np_mean (map (fun x => ((x - m) * (x - m))%float) arr)).

(** The standard deviation the scan divides by. *)
Definition std_or_one (arr : list float) : float :=
  if (0 <? np_std arr)%float then np_std arr else 1%float.

(** [(v - mean) / std] *)
Definition z_score (arr : list float) (v : float) : float :=
  ((v - np_mean arr) / std_or_one arr)%float.

(** An entry of [anomaly_records]. *)
Record anomaly_record : Type := mkAnomaly {
  an_asset_id  : Z;
  an_timestamp : string;
  an_value     : float;
  an_z         : float
}.

(** The body of the loop [for aid, g in grouped]. *)
Definition scan_group (aid : Z) (g : list (reading float)) : list anomaly_record :=
  let arr := map value g in
  if (List.length arr <? 2)%nat then []
  else
    let mask := fun r : reading float => (2.5 <? z_score arr (value r))%float in
    map (fun val => mkAnomaly aid (timestamp val) (value val) (z_score arr (value val)))
        (filter mask g).

(** The list the anomaly panel builds (empty when the panel stops early). *)
Definition anomaly_records (df : DataFrame float) : list anomaly_record :=
  if empty df then []
  else
    let z_df := filter is_electricity df in
    if empty z_df then []
    else flat_map (fun kg => scan_group (fst kg) (snd kg)) (groupby asset_id z_df).

(** What the anomaly panel renders. *)
Inductive anomaly_view : Type :=
  | AnomalyWrite (msg : string)
  | AnomalyTable (rows : list anomaly_record).

Definition anomaly_panel (df : DataFrame float) : anomaly_view :=
  if empty df then AnomalyWrite "No data to analyze anomalies."
  else if empty (filter is_electricity df) then AnomalyWrite "No electricity data"
  else if empty (anomaly_records df)
       then AnomalyWrite "No strong anomalies detected (z>2.5)."
       else AnomalyTable (anomaly_records df).

(* ================================================================== *)
(** * dashboard.py: forecast *)
(* ================================================================== *)

(** A series indexed by date: (date, value) in index order. *)
Definition Series : Type := list (Z * float).

(** The observations of the trailing window that ends at position [i]. *)
Definition rolling_window (window : nat) (xs : list float) (i : nat) : list float :=
  skipn (S i - window) (firstn (S i) xs).

(** [series.rolling(window, min_periods).mean()]: not-a-number where the
    window holds fewer than [min_periods] observations. *)
Definition rolling_mean (window min_periods : nat) (xs : list float) : list float :=
  map (fun i =>
         let w := rolling_window window xs i in
         if (List.length w <? min_periods)%nat then PrimFloat.nan else Series_mean w)
      (seq 0 (List.length xs)).

(** [pd.date_range(start, periods)] *)
Definition date_range (start : Z) (periods : nat) : list Z :=
  map (fun i => start + Z.of_nat i) (seq 0 periods).

(** [simple_moving_average_forecast(series, days_out=7, window=3)] *)
Definition simple_moving_average_forecast
    (series : Series) (days_out : nat) (window : nat) : Series :=
  if empty series then []
  else
    let ma := rolling_mean window 1 (map snd series) in
    let last := List.last ma PrimFloat.nan in
    let future_idx := date_range (fst (List.last series (0, 0%float)) + 1) days_out in
    combine future_idx (repeat last days_out).

(** Outcome of a call that may raise. *)
Inductive result (A : Type) : Type :=
  | Ok (a : A)
  | Raise (e : string).

Arguments Ok {A} _.
Arguments Raise {A} _.

(** The fit-and-predict of the optional library, when it could be imported;
    it may raise. *)
Definition ProphetModel : Type := Series -> nat -> result Series.

(** Outcome of [from prophet import Prophet] at module load. *)
Inductive prophet_import : Type :=
  | Imported (Prophet : ProphetModel)
  | ImportFailed (e : string).

(** [try: from prophet import Prophet ... except Exception: ...] *)
Definition PROPHET_AVAILABLE (imp : prophet_import) : bool :=
  match imp with
  | Imported _ => true
  | ImportFailed _ => false
  end.

(** [prophet_forecast(series, days_out)] *)
Definition prophet_forecast (imp : prophet_import) (series : Series) (days_out : nat)
    : result Series :=
  match imp with
  | ImportFailed _ => Raise "Prophet not available"
  | Imported Prophet => Prophet series days_out
  end.

(** The sidebar: the checkbox exists only when the library was imported. *)
Definition use_prophet (imp : prophet_import) (checkbox : bool) : bool :=
  if PROPHET_AVAILABLE imp then checkbox else false.

(** [series.sort_index()] *)
Definition sort_index (s : Series) : Series := sort_values (ascending fst) s.

(** What the forecast panel renders. *)
Inductive forecast_view : Type :=
  | ForecastInfo (msg : string)
  | ProphetPlot (series forecast : Series)
  | ForecastError (msg : string)
  | MovingAveragePlot (series wa : Series).

(** The "Forecast" panel; [Raise] would be an exception leaving the panel. *)
Definition forecast_panel (imp : prophet_import) (checkbox : bool)
    (daily : list (daily_row float)) (days_out : nat) : result forecast_view :=
  if empty daily then Ok (ForecastInfo "No daily series available for forecasting.")
  else
    let series := sort_index (map (fun r => (date r, daily_kWh r)) daily) in
    if PROPHET_AVAILABLE imp && use_prophet imp checkbox then
      match prophet_forecast imp series days_out with
      | Ok forecast_series => Ok (ProphetPlot series forecast_series)
      | Raise e => Ok (ForecastError ("Prophet error: " ++ e))
      end
    else
      Ok (MovingAveragePlot series (simple_moving_average_forecast series days_out 3)).

(* ================================================================== *)
(** * aggregation_queries.py *)
(* ================================================================== *)

(** The seven pipelines of the script. *)
Inductive pipeline : Type :=
  | pipeline_total
  | pipeline_asset
  | pipeline_avg
  | pipeline_daily
  | pipeline_spike
  | pipeline_emission
  | pipeline_geo.

(** A result document, as printed. *)
Definition doc : Type := string.

(** The external store as the script sees it: the answer (or the error) of
    [db.telemetry.aggregate] to each pipeline, whether [service_providers]
    carries a 2dsphere index on [location], and the providers by distance
    as the server returns them when it can run [$geoNear]. *)
Record Store : Type := mkStore {
  telemetry_aggregate : pipeline -> result (list doc);
  has_2dsphere_index  : bool;
  providers_by_distance : list doc
}.

(** The server's error for [$geoNear] without a geo index. *)
Definition geoNear_no_index : string :=
  "unable to find index for $geoNear query".

(** [db.service_providers.aggregate(pipeline_geo)].  The store is an external
    collaborator; its behaviour is taken from the spec (4.5): the
    nearest-neighbour query requires the spatial index and fails without it. *)
Definition service_providers_aggregate (db : Store) : result (list doc) :=
  if has_2dsphere_index db then Ok (providers_by_distance db)
  else Raise geoNear_no_index.

(** A line written to standard output. *)
Inductive output : Type :=
  | Header (n : nat) (title : string)
  | Repr (docs : list doc)
  | Line (s : string).

(** A script step: it appends to the output and returns or raises. *)
Definition Script (A : Type) : Type := list output -> list output * result A.

Definition ret {A : Type} (a : A) : Script A := fun out => (out, Ok a).

Definition bind {A B : Type} (m : Script A) (k : A -> Script B) : Script B :=
  fun out =>
    match m out with
    | (out', Ok a) => k a out'
    | (out', Raise e) => (out', Raise e)
    end.

Definition print (o : output) : Script unit := fun out => (out ++ [o], Ok tt).

Definition call {A : Type} (r : result A) : Script A := fun out => (out, r).

(** [try: body except Exception as e: handler(e)] *)
Definition try_except {A : Type} (body : Script A) (handler : string -> Script A)
    : Script A :=
  fun out =>
    match body out with
    | (out', Ok a) => (out', Ok a)
    | (out', Raise e) => handler e out'
    end.

Declare Scope script_scope.
Delimit Scope script_scope with script.
Notation "x <- m ;; k" := (bind m (fun x => k))
  (at level 61, m at next level, right associativity) : script_scope.
Notation "m ;; k" := (bind m (fun _ => k))
  (at level 61, right associativity) : script_scope.
#[local] Open Scope script_scope.

(** One of the sections 1 to 6: header, query, print. *)
Definition telemetry_section (db : Store) (n : nat) (title : string) (p : pipeline)
    : Script unit :=
  print (Header n title) ;;
  r <- call (telemetry_aggregate db p) ;;
  print (Repr r).

Definition telemetry_sections (db : Store) : Script unit :=
  telemetry_section db 1 "Total Electricity Consumption (kWh):" pipeline_total ;;
  telemetry_section db 2 "Electricity Usage Per Asset:" pipeline_asset ;;
  telemetry_section db 3 "Average Electricity Usage (kWh):" pipeline_avg ;;
  telemetry_section db 4 "Electricity Usage Per Day:" pipeline_daily ;;
  telemetry_section db 5 "Highest Electricity Spike:" pipeline_spike ;;
  telemetry_section db 6 "Total Emissions (kg CO2):" pipeline_emission.

(** Section 7: the nearest-provider query inside its [try]. *)
Definition geo_section (db : Store) : Script unit :=
  print (Header 7 "Nearest Recycling / Service Provider:") ;;
  try_except
    (result_geo <- call (service_providers_aggregate db) ;;
     print (Repr result_geo))
    (fun e =>
       print (Line "GeoNear requires 2dsphere index!") ;;
       print (Line ("Error: " ++ e))).

(** The whole script, run from an empty output. *)
Definition aggregation_queries (db : Store) : list output * result unit :=
  (telemetry_sections db ;; geo_section db) [].

(* ================================================================== *)
(** * dashboard.py: loading, KPI row, index helper, provider map *)
(* ================================================================== *)

(** A stored telemetry document, before [telemetry_df] adds [ts]. *)
Record telemetry_doc : Type := mkDoc {
  doc_timestamp  : string;
  doc_asset_id   : Z;
  doc_site_id    : Z;
  doc_value_type : string;
  doc_value      : float
}.

(** The fields of an asset document that the dashboard reads. *)
Record asset_doc : Type := mkAssetDoc {
  a_asset_id : Z;
  a_site_id  : Z
}.

(** The [site_id] argument of [telemetry_df]: [None], the string ["All"],
    or a site identifier. *)
Inductive site_arg : Type :=
  | SiteNone
  | SiteAll
  | SiteId (id : Z).

(** The condition a query puts on [asset_id]:
    [{"$in": asset_ids}] or [{"$exists": False}]. *)
Inductive asset_cond : Type :=
  | AssetIn (asset_ids : list Z)
  | AssetNotExists.

(** The query dictionary [q]: its optional [asset_id] entry and its optional
    [timestamp] entry with the optional bounds [$gte] and [$lte]. *)
Record query : Type := mkQuery {
  q_asset_id  : option asset_cond;
  q_timestamp : option (option string * option string)
}.

(** [if site_id and site_id != "All"]: an integer is true when it is not 0. *)
Definition site_selected (site_id : site_arg) : option Z :=
  match site_id with
  | SiteId id => if id =? 0 then None else Some id
  | SiteNone | SiteAll => None
  end.

(** [[a["asset_id"] for a in db.assets.find({"site_id": site_id})]] *)
Definition site_asset_ids (assets : list asset_doc) (site_id : Z) : list Z :=
  map a_asset_id (filter (fun a => a_site_id a =? site_id) assets).

(** The query [telemetry_df] builds.  A bound is given by its
    ["%Y-%m-%dT%H:%M:%S"] rendering; a datetime is always true, so
    [start or end] holds when one of them is given.  The final
    [if not q["timestamp"]: q.pop("timestamp")] is kept as written. *)
Definition telemetry_query (assets : list asset_doc) (site_id : site_arg)
    (start end_ : option string) : query :=
  let q_asset :=
    match site_selected site_id with
    | Some id =>
        let asset_ids := site_asset_ids assets id in
        Some (if empty asset_ids then AssetNotExists else AssetIn asset_ids)
    | None => None
    end in
  let q_ts :=
    match start, end_ with
    | None, None => None
    | _, _ =>
        let bounds := (start, end_) in
        match bounds with
        | (None, None) => None
        | _ => Some bounds
        end
    end in
  mkQuery q_asset q_ts.

(** Whether a stored document satisfies a query.  Every stored document has
    an [asset_id], so [{"$exists": False}] selects none; strings are
    compared byte-wise, as the store does. *)
Definition matches (q : query) (d : telemetry_doc) : bool :=
  match q_asset_id q with
  | None => true
  | Some (AssetIn asset_ids) => existsb (Z.eqb (doc_asset_id d)) asset_ids
  | Some AssetNotExists => false
  end
  &&
  match q_timestamp q with
  | None => true
  | Some (gte, lte) =>
      match gte with
      | Some lo => String.leb lo (doc_timestamp d)
      | None => true
      end
      &&
      match lte with
      | Some hi => String.leb (doc_timestamp d) hi
      | None => true
      end
  end.

(** [telemetry_df(site_id, start, end)] over the [assets] and [telemetry]
    collections; [to_datetime] is the timestamp parser. *)
Definition telemetry_df (to_datetime : string -> Timestamp)
    (assets : list asset_doc) (telemetry : list telemetry_doc)
    (site_id : site_arg) (start end_ : option string) : DataFrame float :=
  let q := telemetry_query assets site_id start end_ in
  let rows := filter (matches q) telemetry in
  map (fun d => mkReading (doc_timestamp d) (doc_asset_id d) (doc_site_id d)
                          (doc_value_type d) (doc_value d)
                          (to_datetime (doc_timestamp d)))
      rows.

(** A site document as [load_sites] projects it. *)
Record site_doc : Type := mkSite {
  s_site_id : Z;
  s_name    : string
}.

(** [site_map.get(name)] for [site_map = {s["name"]: s["site_id"] for s in
    sites}]: a later site of the same name replaces an earlier one. *)
Definition site_map_get (sites : list site_doc) (name : string) : option Z :=
  fold_left (fun found s => if String.eqb (s_name s) name then Some (s_site_id s)
                            else found)
            sites None.

(** The [site_id] the dashboard passes to [telemetry_df] for the name chosen
    in the selector: [site_map.get(chosen_site_name, "All")], with "All"
    turned into [None]. *)
Definition chosen_site (sites : list site_doc) (chosen_site_name : string) : site_arg :=
  match site_map_get sites chosen_site_name with
  | Some id => SiteId id
  | None => SiteNone
  end.

(** The [emissions] figure of the KPI row. *)
Definition emissions (df : DataFrame float) : float :=
  calc_emissions_kg (calc_total_kwh df) factor_default.

(** [asset_df.head(10)], the rows of the "Top 10" chart. *)
Definition top10 (df : DataFrame float) : list (asset_row float) :=
  firstn 10 (asset_aggregates df).

(** The kind of an index key: a direction or a special type. *)
Inductive key_kind : Type :=
  | Ascending
  | Descending
  | Kind (name : string).

(** [index_information()]: the indexes of a collection by name, each with
    its list of (field, kind) keys. *)
Definition indexes : Type := list (string * list (string * key_kind)).

(** The inner loops of [create_2dsphere_index]: some key of some index is
    on the field [location]. *)
Definition has_location_key (idx : indexes) : bool :=
  existsb (fun entry => existsb (fun key => String.eqb (fst key) "location") (snd entry))
          idx.

(** The name the driver gives to the index [[("location", "2dsphere")]]. *)
Definition location_2dsphere : string := "location_2dsphere".

(** [coll.create_index([("location", "2dsphere")])]: the server adds the
    index, and refuses when the name is taken by an index with other keys. *)
Definition create_index (idx : indexes) : result indexes :=
  let keys := [("location"%string, Kind "2dsphere")] in
  if existsb (fun entry => String.eqb (fst entry) location_2dsphere) idx
  then Raise "An existing index has the same name as the requested index"
  else Ok (idx ++ [(location_2dsphere, keys)]).

(** [create_2dsphere_index()]: the message and the indexes afterwards. *)
Definition create_2dsphere_index (idx : indexes) : result (string * indexes) :=
  if has_location_key idx then Ok ("2dsphere index already exists"%string, idx)
  else
    match create_index idx with
    | Ok idx' => Ok ("2dsphere index created"%string, idx')
    | Raise e => Raise e
    end.

(** What [$geoNear] needs: an index with a 2dsphere key on [location]. *)
Definition has_2dsphere_location (idx : indexes) : bool :=
  existsb (fun entry =>
             existsb (fun key =>
                        String.eqb (fst key) "location" &&
                        match snd key with
                        | Kind k => String.eqb k "2dsphere"
                        | _ => false
                        end)
                     (snd entry))
          idx.

(** The value under [coordinates] in a provider's location: a list of
    numbers or something else. *)
Inductive coordinates_value : Type :=
  | CoordList (xs : list float)
  | CoordOther.

(** A service provider as the map panel reads it: optional name and type,
    and the location, which may be missing or null, with its optional
    [coordinates]. *)
Record provider : Type := mkProvider {
  p_name     : option string;
  p_type     : option string;
  p_location : option (option coordinates_value)
}.

(** A row of the provider frame. *)
Record provider_row : Type := mkProviderRow {
  pr_name : string;
  pr_type : string;
  lat     : float;
  lon     : float
}.

(** The body of [for p in provs]: the row of a provider whose coordinates
    are a list of at least two numbers. *)
Definition provider_to_row (p : provider) : option provider_row :=
  match p_location p with
  | Some (Some (CoordList (x0 :: x1 :: _))) =>
      Some (mkProviderRow (match p_name p with Some n => n | None => "" end)
                          (match p_type p with Some t => t | None => "" end)
                          x1 x0)
  | _ => None
  end.

Definition provider_rows (provs : list provider) : list provider_row :=
  flat_map (fun p => match provider_to_row p with
                     | Some row => [row]
                     | None => []
                     end)
           provs.

(** What the provider panel renders. *)
Inductive provider_view : Type :=
  | ProviderInfo (msg : string)
  | ProviderMap (points : list (float * float)) (table : list (string * string)).

Definition provider_panel (provs : list provider) : provider_view :=
  if empty provs then ProviderInfo "No service providers found in DB."
  else
    let rows := provider_rows provs in
    if empty rows
    then ProviderInfo "Service provider locations invalid or missing coordinates."
    else ProviderMap (map (fun r => (lat r, lon r)) rows)
                     (firstn 10 (map (fun r => (pr_name r, pr_type r)) rows)).

(* ================================================================== *)
(** * Sign classes of IEEE-754 values *)
(* ================================================================== *)

(** Not above zero, or not a number: what can never exceed a positive
    threshold. *)
Definition nonpos (f : spec_float) : bool :=
  match f with
  | S754_zero _ => true
  | S754_nan => true
  | S754_infinity s => s
  | S754_finite s _ _ => s
  end.

(** A number that is not below zero. *)
Definition nonneg (f : spec_float) : bool :=
  match f with
  | S754_zero _ => true
  | S754_nan => false
  | S754_infinity s => negb s
  | S754_finite s _ _ => negb s
  end.

(** The sign bit of a value that has one. *)
Definition has_sign (s : bool) (f : spec_float) : Prop :=
  match f with
  | S754_nan => True
  | S754_zero s' | S754_infinity s' | S754_finite s' _ _ => s' = s
  end.

(** Strictly above zero. *)
Definition positive_float (f : spec_float) : Prop :=
  match f with
  | S754_infinity false | S754_finite false _ _ => True
  | _ => False
  end.


(** The values of one asset's electricity readings, in frame order: the
    array [g["value"].values] of that asset's group. *)
Definition group_values (df : DataFrame float) (aid : Z) : list float :=
  map value (filter (fun r => asset_id r =? aid) (filter is_electricity df)).

(* ================================================================== *)
(** * Sample data *)
(* ================================================================== *)

(** An hourly electricity reading of asset [aid] on day [d] (a day number,
    2024-01-01 is 738886) at hour [h]. *)
Definition hourly {V : Type} (aid d h : Z) (v : V) : reading V :=
  mkReading "2024" aid 1 electricity_kWh v (mkTimestamp d (3600 * h)).

(** 0.1 kWh on one day, 0.2 and 0.3 on the next. *)
Definition rounding_frame : DataFrame float :=
  [ hourly 101 738886 0 0.1%float;
    hourly 101 738887 0 0.2%float;
    hourly 101 738887 1 0.3%float ].

(** The same shape in whole watt-hours. *)
Definition exact_frame : DataFrame Z :=
  [ hourly 101 738886 0 100; hourly 101 738887 0 200; hourly 101 738887 1 300 ].

(** A frame that is not empty and holds no electricity reading. *)
Definition water_frame : DataFrame float :=
  [ mkReading "2024-01-01T00:00:00" 101 1 "water_L" 12.5%float (mkTimestamp 738886 0) ].

(** One asset, one reading per hour with the given values. *)
Definition one_asset (vs : list float) : DataFrame float :=
  map (fun iv => hourly 101 738886 (Z.of_nat (fst iv)) (snd iv))
      (combine (seq 0 (List.length vs)) vs).


(** Nineteen readings at 10 and one at 200. *)
Definition readings_200 : list float := (repeat 10 19 ++ [200])%float.


(** A store whose telemetry queries answer and whose providers carry no
    spatial index. *)
Definition store_without_index : Store :=
  mkStore (fun _ => Ok ["{...}"%string]) false
          ["{'name': 'Raipur Recycling Center'}"%string].

(** Eleven assets, 101 to 111, with one reading each: 1, 2, ..., 11 kWh. *)
Definition eleven_assets : DataFrame float :=
  map (fun iv => hourly (100 + Z.of_nat (fst iv)) 738886 0 (snd iv))
      (combine (seq 1 11) [1; 2; 3; 4; 5; 6; 7; 8; 9; 10; 11]%float).

(** An imported model whose fit fails. *)
Definition failing_prophet : prophet_import :=
  Imported (fun _ _ => Raise "Dataframe has less than 2 non-NaN rows.").

(** The two seeded sites and a third one that took the name "All". *)
Definition sites_with_all : list site_doc :=
  [ mkSite 1 "Raipur Plant"; mkSite 2 "Bhilai Warehouse"; mkSite 7 "All" ].

(** Two sites; site 3 owns no asset. *)
Definition sample_assets : list asset_doc :=
  [ mkAssetDoc 101 1; mkAssetDoc 102 1; mkAssetDoc 201 2 ].

Definition sample_telemetry : list telemetry_doc :=
  [ mkDoc "2024-01-01T00:00:00" 101 1 "electricity_kWh" 20.5%float;
    mkDoc "2024-01-01T00:00:00" 201 2 "electricity_kWh" 19.25%float;
    mkDoc "2024-01-02T00:00:00" 101 2 "electricity_kWh" 21%float ].

(** An ordinary ascending index on [location], beside the default one. *)
Definition ascending_location_index : indexes :=
  [ ("_id_"%string, [("_id"%string, Ascending)]);
    ("location_1"%string, [("location"%string, Ascending)]) ].


(** A provider with coordinates (longitude first) and one without. *)
Definition sample_providers : list provider :=
  [ mkProvider (Some "Raipur Recycling Center"%string) None
               (Some (Some (CoordList [81.63; 21.25]%float)));
    mkProvider (Some "Bhilai Solar Services"%string) None None ].

(* ================================================================== *)
(** * Binary64 facts *)
(* ================================================================== *)

Lemma has_sign_true_nonpos f : has_sign true f -> nonpos f = true.
Proof. destruct f; simpl; auto. Qed.

Lemma binary_round_aux_sign s m e l :
  has_sign s (binary_round_aux prec emax s m e l).
Proof.
  unfold binary_round_aux.
  destruct (shr_fexp prec emax m e l) as [mrs' e'].
  destruct (shr_fexp prec emax _ e' loc_Exact) as [mrs'' e''].
  destruct (shr_m mrs''); simpl; auto.
  destruct (e'' <=? _); simpl; auto.
Qed.

Lemma binary_round_sign s m e : has_sign s (binary_round prec emax s m e).
Proof.
  unfold binary_round.
  destruct (shl_align m e _) as [mz ez]. apply binary_round_aux_sign.
Qed.

Lemma binary_normalize_nonpos m e :
  m <= 0 -> nonpos (binary_normalize prec emax m e false) = true.
Proof.
  destruct m as [|p|p]; simpl; intros Hm; try reflexivity; try lia.
  apply has_sign_true_nonpos, binary_round_sign.
Qed.

Lemma digits2_pos_size p : digits2_pos p = Pos.size p.
Proof. induction p; simpl; congruence. Qed.

Lemma iter_xO_pow m d : Zpos (Pos.iter xO m d) = Zpos m * 2 ^ Zpos d.
Proof.
  induction d using Pos.peano_ind.
  - simpl. lia.
  - rewrite Pos.iter_succ, Pos2Z.inj_succ, Z.pow_succ_r by lia.
    rewrite Pos2Z.inj_xO, IHd. lia.
Qed.

Lemma shl_align_pow mx ex ez :
  ez <= ex -> Zpos (fst (shl_align mx ex ez)) = Zpos mx * 2 ^ (ex - ez).
Proof.
  intros Hle. unfold shl_align.
  destruct (ez - ex) as [|d|d] eqn:E; simpl.
  - replace (ex - ez) with 0 by lia. simpl. lia.
  - lia.
  - rewrite iter_xO_pow. replace (ex - ez) with (Zpos d) by lia. reflexivity.
Qed.

Lemma bounded_range m e :
  bounded prec emax m e = true ->
  Zpos m < 2 ^ 53 /\ emin <= e /\ (emin < e -> 2 ^ 52 <= Zpos m).
Proof.
  unfold bounded, canonical_mantissa, fexp.
  rewrite andb_true_iff, Z.eqb_eq, digits2_pos_size. intros [Hc _].
  pose proof (Pos.size_gt m) as Hgt.
  pose proof (Pos.size_le m) as Hle.
  apply Pos2Z.pos_lt_pos in Hgt. apply Pos2Z.pos_le_pos in Hle.
  rewrite Pos2Z.inj_pow in Hgt, Hle. rewrite Pos2Z.inj_xO in Hle.
  change (Z.pos 2) with 2 in *.
  set (d := Zpos (Pos.size m)) in *.
  assert (Hd : 0 < d) by (unfold d; lia).
  unfold SpecFloat.emin, prec, emax in *.
  repeat split.
  - assert (d <= 53) by lia.
    assert (2 ^ d <= 2 ^ 53) by (apply Z.pow_le_mono_r; lia). lia.
  - lia.
  - intros He. assert (d = 53) by lia.
    rewrite H in Hle. change (2 ^ 53) with (2 * 2 ^ 52) in Hle. lia.
Qed.

Lemma pow2_ge_2 n : 0 < n -> 2 <= 2 ^ n.
Proof.
  intros Hn. change 2 with (2 ^ 1) at 1. apply Z.pow_le_mono_r; lia.
Qed.

Lemma SFsub_nonpos x y :
  valid_binary x = true -> valid_binary y = true ->
  SFleb x y = true -> nonpos (SF64sub x y) = true.
Proof.
  unfold SFleb, SF64sub.
  destruct x as [sx|sx| |sx mx ex], y as [sy|sy| |sy my ey]; simpl;
    intros Vx Vy Hle; try discriminate; try reflexivity;
    try (destruct sx; try destruct sy; simpl in *; (reflexivity || discriminate)).
  apply binary_normalize_nonpos.
  apply bounded_range in Vx, Vy.
  destruct Vx as (Hx & Hex & Hnx), Vy as (Hy & Hey & Hny).
  change (IntDef.Z.min ex ey) with (Z.min ex ey).
  rewrite (shl_align_pow mx ex (Z.min ex ey)) by lia.
  rewrite (shl_align_pow my ey (Z.min ex ey)) by lia.
  change (PosDef.Pos.compare_cont Eq mx my) with (Pos.compare mx my) in Hle.
  change (2 ^ 53) with (2 * 2 ^ 52) in Hx, Hy.
  assert (P52 : 0 < 2 ^ 52) by reflexivity.
  revert Hx Hy Hnx Hny. generalize (2 ^ 52) P52. intros B HB Hx Hy Hnx Hny.
  destruct sx, sy; unfold cond_Zopp; try discriminate.
  - (* both negative *)
    destruct (Z.compare_spec ex ey) as [E|E|E]; try discriminate.
    + subst ey. rewrite Z.min_id, Z.sub_diag, !Z.mul_1_r.
      destruct (Pos.compare_spec mx my); try discriminate; lia.
    + rewrite Z.min_r, Z.sub_diag, Z.mul_1_r by lia.
      pose proof (pow2_ge_2 (ex - ey) ltac:(lia)). nia.
  - lia.
  - (* both positive *)
    destruct (Z.compare_spec ex ey) as [E|E|E]; try discriminate.
    + subst ey. rewrite Z.min_id, Z.sub_diag, !Z.mul_1_r.
      destruct (Pos.compare_spec mx my); try discriminate; lia.
    + rewrite Z.min_l, Z.sub_diag, Z.mul_1_r by lia.
      pose proof (pow2_ge_2 (ey - ex) ltac:(lia)). nia.
Qed.

Lemma SFltb_zero_positive f : SFltb (S754_zero false) f = true -> positive_float f.
Proof. destruct f as [s|[]| |[] m e]; simpl; intros; try discriminate; exact I. Qed.

Lemma SFdiv_nonpos x y :
  nonpos x = true -> positive_float y -> nonpos (SF64div x y) = true.
Proof.
  unfold SF64div.
  destruct x as [sx|sx| |sx mx ex], y as [sy|[]| |[] my ey]; simpl;
    intros Hx Hy; try contradiction; try reflexivity; subst; try reflexivity.
  destruct (SFdiv_core_binary prec emax (Z.pos mx) ex (Z.pos my) ey) as [[mz ez] lz].
  apply has_sign_true_nonpos, binary_round_aux_sign.
Qed.

Lemma SFltb_positive_nonpos m e x :
  nonpos x = true -> SFltb (S754_finite false m e) x = false.
Proof. destruct x as [s|s| |s mx ex]; simpl; intros H; subst; reflexivity. Qed.

Lemma z_nonpos_not_above (v m s : float) :
  (v <=? m)%float = true -> (0 <? s)%float = true ->
  (2.5 <? (v - m) / s)%float = false.
Proof.
  rewrite FloatAxioms.leb_spec, !FloatAxioms.ltb_spec, FloatAxioms.div_spec, FloatAxioms.sub_spec. intros Hle Hs.
  change (Prim2SF 2.5) with (S754_finite false 5629499534213120 (-51)).
  apply SFltb_positive_nonpos, SFdiv_nonpos.
  - apply SFsub_nonpos; auto using Prim2SF_valid.
  - apply SFltb_zero_positive. exact Hs.
Qed.

Lemma SFcompare_swap x y :
  SFcompare y x = option_map CompOpp (SFcompare x y).
Proof.
  destruct x as [sx|sx| |sx mx ex], y as [sy|sy| |sy my ey]; simpl;
    try reflexivity;
    try (destruct sx; try destruct sy; reflexivity).
  f_equal.
  change (PosDef.Pos.compare_cont Eq) with Pos.compare.
  destruct sx, sy; try reflexivity;
    rewrite (Z.compare_antisym ex ey), (Pos.compare_antisym mx my);
    destruct (ex ?= ey); simpl; try reflexivity;
    destruct (mx ?= my)%positive; reflexivity.
Qed.

Lemma SFleb_total x y :
  x <> S754_nan -> y <> S754_nan -> SFleb x y = false -> SFleb y x = true.
Proof.
  unfold SFleb. rewrite (SFcompare_swap x y). intros Hx Hy.
  destruct (SFcompare x y) as [[]|] eqn:E; simpl; try discriminate; try reflexivity.
  destruct x, y; simpl in E; try discriminate; congruence.
Qed.

Lemma SFleb_not_nan x y :
  SFleb x y = true -> x <> S754_nan /\ y <> S754_nan.
Proof.
  unfold SFleb. destruct x, y; simpl; intros H; try discriminate; split; discriminate.
Qed.

Lemma SFleb_trans x y z :
  SFleb x y = true -> SFleb y z = true -> SFleb x z = true.
Proof.
  unfold SFleb.
  destruct x as [sx|sx| |sx mx ex], y as [sy|sy| |sy my ey], z as [sz|sz| |sz mz ez];
    simpl; try discriminate; try reflexivity;
    try (destruct sx; try destruct sy; try destruct sz; simpl; intros; (reflexivity || discriminate)).
  change (PosDef.Pos.compare_cont Eq) with Pos.compare.
  destruct sx, sy, sz; simpl; try discriminate; try reflexivity;
    destruct (Z.compare_spec ex ey); try discriminate;
    destruct (Z.compare_spec ey ez); try discriminate;
    destruct (Z.compare_spec ex ez); try reflexivity; try lia; subst;
    destruct (Pos.compare_spec mx my); try discriminate;
    destruct (Pos.compare_spec my mz); try discriminate;
    destruct (Pos.compare_spec mx mz); try reflexivity; try lia; try discriminate.
Qed.

Lemma is_nan_spec (f : float) :
  PrimFloat.is_nan f = true <-> Prim2SF f = S754_nan.
Proof.
  unfold PrimFloat.is_nan. rewrite FloatAxioms.eqb_spec. unfold SFeqb.
  destruct (Prim2SF f) as [s|s| |s m e]; simpl.
  - split; discriminate.
  - destruct s; simpl; split; discriminate.
  - split; reflexivity.
  - change (PosDef.Pos.compare_cont Eq) with Pos.compare.
    rewrite Z.compare_refl, Pos.compare_refl. destruct s; simpl; split; discriminate.
Qed.

(** [descending] is a total preorder, with not-a-number at the bottom. *)
Lemma descending_total {R : Type} (key : R -> float) (a b : R) :
  descending key a b = false -> descending key b a = true.
Proof.
  unfold descending. rewrite orb_false_iff, orb_true_iff. intros [Hb Hle].
  destruct (PrimFloat.is_nan (key a)) eqn:Ha; [now left|right].
  rewrite FloatAxioms.leb_spec in *.
  apply SFleb_total; trivial; intros E; apply is_nan_spec in E; congruence.
Qed.

Lemma descending_trans {R : Type} (key : R -> float) (a b c : R) :
  descending key a b = true -> descending key b c = true ->
  descending key a c = true.
Proof.
  unfold descending. rewrite !orb_true_iff.
  intros Hab [Hc|Hcb]; [now left|right].
  rewrite FloatAxioms.leb_spec in *.
  destruct Hab as [Hb|Hba].
  - apply is_nan_spec in Hb. apply SFleb_not_nan in Hcb. tauto.
  - eapply SFleb_trans; eassumption.
Qed.

(* ================================================================== *)
(** * Sorting and grouping *)
(* ================================================================== *)

Section SortFacts.
Context {R : Type} (before : R -> R -> bool).

Lemma sort_insert_perm (x : R) (l : list R) :
  Permutation (sort_insert before x l) (x :: l).
Proof.
  induction l as [|y l IH]; simpl; [reflexivity|].
  destruct (before x y); [reflexivity|].
  rewrite IH. apply perm_swap.
Qed.


Hypothesis before_total : forall a b, before a b = false -> before b a = true.
Hypothesis before_trans :
  forall a b c, before a b = true -> before b c = true -> before a c = true.

Let ordered (a b : R) : Prop := before a b = true.

Lemma sort_insert_sorted (x : R) (l : list R) :
  StronglySorted ordered l -> StronglySorted ordered (sort_insert before x l).
Proof.
  induction 1 as [|y l Hs IH Hall]; simpl.
  - repeat constructor.
  - destruct (before x y) eqn:E.
    + constructor; [now constructor|].
      constructor; [exact E|].
      eapply Forall_impl; [|exact Hall].
      intros z Hz. eapply before_trans; eassumption.
    + constructor; [exact IH|].
      eapply Permutation_Forall; [symmetry; apply sort_insert_perm|].
      constructor; [now apply before_total|exact Hall].
Qed.

Lemma sort_values_sorted (l : list R) : StronglySorted ordered (sort_values before l).
Proof.
  induction l as [|x l IH]; simpl; [constructor|].
  now apply sort_insert_sorted.
Qed.
End SortFacts.


Lemma insert_key_In (k a : Z) (ks : list Z) :
  In k (insert_key a ks) <-> k = a \/ In k ks.
Proof.
  induction ks as [|k' ks IH]; simpl; [intuition congruence|].
  destruct (Z.ltb_spec a k'); simpl; [intuition congruence|].
  destruct (Z.eqb_spec a k'); simpl; [subst; intuition congruence|].
  rewrite IH. intuition congruence.
Qed.

Lemma insert_key_sorted (a : Z) (ks : list Z) :
  StronglySorted Z.lt ks -> StronglySorted Z.lt (insert_key a ks).
Proof.
  induction 1 as [|k' ks Hs IH Hall]; simpl.
  - repeat constructor.
  - destruct (Z.ltb_spec a k').
    + constructor; [now constructor|].
      constructor; [assumption|].
      eapply Forall_impl; [|exact Hall]. simpl. intros; lia.
    + destruct (Z.eqb_spec a k'); [now constructor|].
      constructor; [exact IH|].
      rewrite Forall_forall in *. intros z Hz.
      apply insert_key_In in Hz. destruct Hz as [->|Hz]; [lia|auto].
Qed.

Lemma group_keys_In (k : Z) (l : list Z) : In k (group_keys l) <-> In k l.
Proof.
  induction l as [|a l IH]; simpl; [tauto|].
  rewrite insert_key_In, IH. intuition congruence.
Qed.

Lemma group_keys_sorted (l : list Z) : StronglySorted Z.lt (group_keys l).
Proof.
  induction l as [|a l IH]; simpl; [constructor|].
  now apply insert_key_sorted.
Qed.


(** Membership in a [groupby]: a key of the column with exactly its rows. *)
Lemma groupby_In {R : Type} (key : R -> Z) (df : list R) (k : Z) (g : list R) :
  In (k, g) (groupby key df) <->
  In k (map key df) /\ g = filter (fun r => key r =? k) df.
Proof.
  unfold groupby. rewrite in_map_iff. split.
  - intros (k' & E & Hin). injection E as -> <-.
    rewrite group_keys_In in Hin. split; [assumption|reflexivity].
  - intros (Hin & ->). exists k. split; trivial. now rewrite group_keys_In.
Qed.

(* ================================================================== *)
(** * Sums in exact arithmetic *)
(* ================================================================== *)

Section ExactSums.
Context {V : Type} `{ExactAdditive V}.

Lemma fold_add_start (l : list V) (a : V) :
  fold_left add l a = add a (fold_left add l zero).
Proof.
  revert a. induction l as [|y l IH]; intros a; simpl.
  - now rewrite add_comm, add_zero_l.
  - rewrite (IH (add a y)), (IH (add zero y)), add_zero_l.
    symmetry. apply add_assoc.
Qed.

Lemma Series_sum_cons (x : V) (l : list V) :
  Series_sum (x :: l) = add x (Series_sum l).
Proof.
  unfold Series_sum. simpl. now rewrite fold_add_start, add_zero_l.
Qed.

Lemma Series_sum_perm (l l' : list V) :
  Permutation l l' -> Series_sum l = Series_sum l'.
Proof.
  induction 1 as [|x l l' _ IH|x y l|l l' l'' _ IH1 _ IH2].
  - reflexivity.
  - now rewrite !Series_sum_cons, IH.
  - rewrite !Series_sum_cons, !add_assoc. f_equal. apply add_comm.
  - congruence.
Qed.



End ExactSums.

(* ================================================================== *)
(** * The claims *)
(* ================================================================== *)

(** ** Total electricity *)



(** ** Average reading *)

(** C2, the case the code misses: the frame is not empty, no row is an
    electricity reading (the count is zero), and the metric is not-a-number
    instead of zero. *)
Theorem avg_kwh_no_electricity_is_nan :
  empty water_frame = false
  /\ List.length (filter is_electricity water_frame) = 0%nat
  /\ avg_kwh water_frame = PrimFloat.nan
  /\ (avg_kwh water_frame =? 0)%float = false.
Proof. repeat split; vm_compute; reflexivity. Qed.

(** The same on every frame of that kind. *)
Lemma avg_kwh_nan_without_electricity (df : DataFrame float) :
  df <> [] -> filter is_electricity df = [] -> avg_kwh df = PrimFloat.nan.
Proof.
  intros Hne Hnone. unfold avg_kwh. destruct df as [|r df]; [now elim Hne|].
  change (empty (r :: df)) with false. cbv iota. rewrite Hnone. reflexivity.
Qed.

(** Where the count is positive the metric is the total over the count. *)
Lemma avg_kwh_total_over_count (df : DataFrame float) :
  filter is_electricity df <> [] ->
  avg_kwh df =
  (calc_total_kwh df / float_of_nat (List.length (filter is_electricity df)))%float.
Proof.
  intros Hne. unfold avg_kwh, calc_total_kwh, Series_mean.
  destruct df as [|r df]; [now elim Hne|]. simpl empty. cbv iota.
  now rewrite length_map.
Qed.

(** ** Emissions *)

(** C5: [calc_emissions_kg] with the default factor is the binary64 product
    of the total and 0.82, it is defined on every total, and 100.0 gives
    82.0. *)
Theorem calc_emissions_kg_default :
  forall total_kwh : float,
    calc_emissions_kg total_kwh factor_default = (total_kwh * 0.82)%float
    /\ Prim2SF (calc_emissions_kg total_kwh factor_default)
       = SF64mul (Prim2SF total_kwh) (Prim2SF 0.82%float)
    /\ calc_emissions_kg 100%float factor_default = 82%float.
Proof.
  intros t. split; [reflexivity|split].
  - unfold calc_emissions_kg, factor_default. apply FloatAxioms.mul_spec.
  - vm_compute. reflexivity.
Qed.

(** ** Per-day rollup *)





(** ** Per-asset rollup *)


(** ** Anomaly scan *)

Lemma scan_group_In (k : Z) (g : list (reading float)) (rec : anomaly_record) :
  In rec (scan_group k g) <->
  (2 <= List.length (map value g))%nat /\
  exists r, In r g /\ (2.5 <? z_score (map value g) (value r))%float = true /\
            rec = mkAnomaly k (timestamp r) (value r) (z_score (map value g) (value r)).
Proof.
  unfold scan_group.
  destruct (Nat.ltb_spec (List.length (map value g)) 2) as [Hlt|Hge].
  - simpl. split; [tauto|]. intros [Hge _]. lia.
  - rewrite in_map_iff. split.
    + intros (r & <- & Hr). apply filter_In in Hr. destruct Hr as (Hr & Hm).
      split; [exact Hge|]. exists r. auto.
    + intros (_ & r & Hr & Hm & ->). exists r. split; [reflexivity|].
      apply filter_In. auto.
Qed.

(** The early exits of the panel add nothing: an empty frame has no group. *)
Lemma anomaly_records_groups (df : DataFrame float) :
  anomaly_records df =
  flat_map (fun kg => scan_group (fst kg) (snd kg))
           (groupby asset_id (filter is_electricity df)).
Proof.
  unfold anomaly_records. destruct df as [|r df]; [reflexivity|].
  change (empty (r :: df)) with false. cbv iota.
  destruct (filter is_electricity (r :: df)); reflexivity.
Qed.

(** The records of the scan: one for each electricity reading of an asset
    with at least two readings whose z-score is above 2.5. *)
Lemma anomaly_records_In (df : DataFrame float) (rec : anomaly_record) :
  In rec (anomaly_records df) <->
  exists r, In r df /\ is_electricity r = true /\
    (2 <= List.length (group_values df (asset_id r)))%nat /\
    (2.5 <? z_score (group_values df (asset_id r)) (value r))%float = true /\
    rec = mkAnomaly (asset_id r) (timestamp r) (value r)
                    (z_score (group_values df (asset_id r)) (value r)).
Proof.
  rewrite anomaly_records_groups, in_flat_map. unfold group_values. split.
  - intros ([k g] & Hin & Hrec). simpl in Hrec.
    apply groupby_In in Hin. destruct Hin as (_ & ->).
    apply scan_group_In in Hrec. destruct Hrec as (Hlen & r & Hr & Hm & ->).
    apply filter_In in Hr. destruct Hr as (Hr & Hk). apply Z.eqb_eq in Hk. subst k.
    apply filter_In in Hr. destruct Hr as (Hr & He).
    exists r. auto 6.
  - intros (r & Hr & He & Hlen & Hm & ->).
    assert (Hz : In r (filter is_electricity df)) by (apply filter_In; auto).
    exists (asset_id r, filter (fun r' => asset_id r' =? asset_id r)
                               (filter is_electricity df)).
    split.
    + apply groupby_In. split; [now apply in_map|reflexivity].
    + simpl. apply scan_group_In. split; [exact Hlen|].
      exists r. repeat split; trivial.
      apply filter_In. split; [exact Hz|apply Z.eqb_refl].
Qed.

Lemma std_or_one_positive (arr : list float) : (0 <? std_or_one arr)%float = true.
Proof.
  unfold std_or_one. destruct (0 <? np_std arr)%float eqn:E; [exact E|reflexivity].
Qed.


(** C10: a reading at or below its asset's mean is never recorded, whatever
    the deviation; the comparison is signed. *)
Theorem anomaly_scan_one_sided :
  forall (df : DataFrame float) (r : reading float),
    In r df -> is_electricity r = true ->
    (value r <=? np_mean (group_values df (asset_id r)))%float = true ->
    (2.5 <? z_score (group_values df (asset_id r)) (value r))%float = false
    /\ forall rec, In rec (anomaly_records df) ->
                   ~ (an_asset_id rec = asset_id r /\ an_value rec = value r).
Proof.
  intros df r Hr He Hle.
  assert (Hz : forall v, (v <=? np_mean (group_values df (asset_id r)))%float = true ->
               (2.5 <? z_score (group_values df (asset_id r)) v)%float = false).
  { intros v Hv. unfold z_score.
    apply z_nonpos_not_above; [exact Hv|apply std_or_one_positive]. }
  split; [now apply Hz|].
  intros rec Hrec [Ha Hv].
  apply anomaly_records_In in Hrec.
  destruct Hrec as (r' & _ & _ & _ & Hm & ->). simpl in Ha, Hv.
  rewrite Ha, Hv, Hz in Hm by exact Hle. discriminate.
Qed.

(** Nineteen readings at 10 and one at 200: the readings at 10 are below
    the mean 19.5 and stay out, the reading 200 is recorded. *)
Lemma anomaly_scan_one_sided_witness :
  (2.5 <? z_score (group_values (one_asset readings_200) 101) 10)%float = false
  /\ map an_value (anomaly_records (one_asset readings_200)) = [200%float].
Proof.
  split; [|vm_compute; reflexivity].
  refine (proj1 (anomaly_scan_one_sided (one_asset readings_200)
                   (hourly 101 738886 0 10%float) _ _ _)).
  - left. reflexivity.
  - reflexivity.
  - vm_compute. reflexivity.
Defined.

(** ** Forecast *)







(** C8: when the optional library could not be imported, the forecast panel
    returns without raising, whatever the checkbox state: it shows the
    moving-average forecast of the daily series, or the "no series" note
    when there is no daily row. *)
Theorem forecast_panel_without_prophet :
  forall (imp : prophet_import) (checkbox : bool)
         (daily : list (daily_row float)) (days_out : nat),
    PROPHET_AVAILABLE imp = false ->
    use_prophet imp checkbox = false
    /\ forecast_panel imp checkbox daily days_out =
       if empty daily
       then Ok (ForecastInfo "No daily series available for forecasting.")
       else
         let series := sort_index (map (fun r => (date r, daily_kWh r)) daily) in
         Ok (MovingAveragePlot series (simple_moving_average_forecast series days_out 3)).
Proof.
  intros imp checkbox daily days_out Habsent.
  unfold forecast_panel, use_prophet. rewrite Habsent. simpl.
  split; reflexivity.
Qed.

Lemma forecast_panel_without_prophet_witness :
  exists wa,
    forecast_panel (ImportFailed "No module named 'prophet'") true
                   (daily_aggregates rounding_frame) 14
    = Ok (MovingAveragePlot [(738886, 0.1%float); (738887, 0.5%float)] wa).
Proof.
  eexists.
  rewrite (proj2 (forecast_panel_without_prophet
                    (ImportFailed "No module named 'prophet'") true
                    (daily_aggregates rounding_frame) 14 eq_refl)).
  vm_compute. reflexivity.
Defined.

(** ** Nearest-provider query *)

(** The handler of section 7 turns any error of the query into two lines. *)
Lemma geo_section_handles (db : Store) (out : list output) :
  geo_section db out =
  match service_providers_aggregate db with
  | Ok result_geo =>
      (out ++ [Header 7 "Nearest Recycling / Service Provider:"]
           ++ [Repr result_geo], Ok tt)
  | Raise e =>
      (out ++ [Header 7 "Nearest Recycling / Service Provider:"]
           ++ [Line "GeoNear requires 2dsphere index!"]
           ++ [Line ("Error: " ++ e)], Ok tt)
  end.
Proof.
  unfold geo_section, bind, try_except, print, call.
  destruct (service_providers_aggregate db); simpl; now rewrite <- !app_assoc.
Qed.

(** C9: without the 2dsphere index the provider query raises; section 7
    catches the error, prints the line that names the index and the error
    line, and returns normally.  The six sections before it print what they
    print on the same store with the index, and a script that reached
    section 7 ends without an error. *)
Theorem geo_query_failure_is_reported :
  forall (db : Store) (out : list output),
    has_2dsphere_index db = false ->
    service_providers_aggregate db = Raise geoNear_no_index
    /\ geo_section db out =
       (out ++ [Header 7 "Nearest Recycling / Service Provider:";
                Line "GeoNear requires 2dsphere index!";
                Line ("Error: " ++ geoNear_no_index)], Ok tt)
    /\ substring 17 14 "GeoNear requires 2dsphere index!" = "2dsphere index"%string
    /\ telemetry_sections db [] =
       telemetry_sections
         (mkStore (telemetry_aggregate db) true (providers_by_distance db)) []
    /\ (forall out6, telemetry_sections db [] = (out6, Ok tt) ->
          aggregation_queries db =
          (out6 ++ [Header 7 "Nearest Recycling / Service Provider:";
                    Line "GeoNear requires 2dsphere index!";
                    Line ("Error: " ++ geoNear_no_index)], Ok tt)).
Proof.
  intros db out Hno.
  assert (Hq : service_providers_aggregate db = Raise geoNear_no_index).
  { unfold service_providers_aggregate. now rewrite Hno. }
  assert (Hgeo : forall o, geo_section db o =
            (o ++ [Header 7 "Nearest Recycling / Service Provider:";
                   Line "GeoNear requires 2dsphere index!";
                   Line ("Error: " ++ geoNear_no_index)], Ok tt)).
  { intros o. rewrite geo_section_handles, Hq. reflexivity. }
  split; [exact Hq|split; [apply Hgeo|split; [reflexivity|split; [reflexivity|]]]].
  intros out6 H6. unfold aggregation_queries, bind at 1. rewrite H6. apply Hgeo.
Qed.

Lemma geo_query_failure_is_reported_witness :
  exists out6,
    aggregation_queries store_without_index =
    (out6 ++ [Header 7 "Nearest Recycling / Service Provider:";
              Line "GeoNear requires 2dsphere index!";
              Line "Error: unable to find index for $geoNear query"], Ok tt).
Proof.
  eexists.
  refine (proj2 (proj2 (proj2 (proj2
            (geo_query_failure_is_reported store_without_index [] eq_refl)))) _ _).
  vm_compute. reflexivity.
Defined.

(* ================================================================== *)
(** * Further properties of the rollups *)
(* ================================================================== *)

Lemma filter_idempotent {A : Type} (f : A -> bool) (l : list A) :
  filter f (filter f l) = filter f l.
Proof.
  induction l as [|x l IH]; simpl; [reflexivity|].
  destruct (f x) eqn:E; simpl; [rewrite E; f_equal|]; exact IH.
Qed.

(** A frame already in strictly ascending key order is left as it is. *)
Lemma sort_values_ascending_id {R : Type} (key : R -> Z) (l : list R) :
  StronglySorted (fun a b => key a < key b) l -> sort_values (ascending key) l = l.
Proof.
  induction 1 as [|x l Hs IH Hall]; simpl; [reflexivity|].
  rewrite IH. destruct l as [|y l]; simpl; [reflexivity|].
  inversion Hall as [|? ? Hxy _]; subst.
  unfold ascending. destruct (Z.leb_spec (key x) (key y)); [reflexivity|lia].
Qed.

Lemma StronglySorted_map {A B : Type} (f : A -> B) (P : B -> B -> Prop) (l : list A) :
  StronglySorted P (map f l) -> StronglySorted (fun a b => P (f a) (f b)) l.
Proof.
  induction l as [|x l IH]; simpl; intros Hs; [constructor|].
  inversion Hs as [|? ? Hs' Hall]; subst. constructor; [auto|].
  rewrite Forall_map in Hall. exact Hall.
Qed.


Section RollupFacts.
Context {V : Type} `{Additive V}.

(** The per-key sums of a frame, as rows built by [mk]. *)
Lemma groupby_sum_rows {Row : Type} (mk : Z -> V -> Row) (key : reading V -> Z)
    (d : DataFrame V) :
  map (fun kv => mk (fst kv) (snd kv)) (groupby_sum key d) =
  map (fun k => mk k (Series_sum (map value (filter (fun r => key r =? k) d))))
      (group_keys (map key d)).
Proof.
  unfold groupby_sum, groupby. rewrite !map_map. reflexivity.
Qed.

(** [daily_aggregates] is the grouping itself: the early return and the
    final sort change nothing. *)
Lemma daily_aggregates_groups (df : DataFrame V) :
  daily_aggregates df =
  map (fun k => mkDaily k
                 (Series_sum
                    (map value (filter (fun r => dt_date (ts r) =? k)
                                       (filter is_electricity df)))))
      (group_keys (map (fun r => dt_date (ts r)) (filter is_electricity df))).
Proof.
  unfold daily_aggregates. destruct df as [|r0 df]; [reflexivity|].
  change (empty (r0 :: df)) with false. cbv iota zeta.
  rewrite (groupby_sum_rows mkDaily). apply sort_values_ascending_id.
  apply StronglySorted_map with (f := date) (P := Z.lt).
  rewrite map_map. simpl. rewrite map_id. apply group_keys_sorted.
Qed.

Lemma asset_sums_groups (df : DataFrame V) :
  asset_sums df =
  map (fun k => mkAsset k
                 (Series_sum
                    (map value (filter (fun r => asset_id r =? k)
                                       (filter is_electricity df)))))
      (group_keys (map asset_id (filter is_electricity df))).
Proof. unfold asset_sums. apply (groupby_sum_rows mkAsset). Qed.
End RollupFacts.

Lemma asset_aggregates_sort (df : DataFrame float) :
  asset_aggregates df = sort_values (descending total_kWh) (asset_sums df).
Proof. unfold asset_aggregates. destruct df; reflexivity. Qed.

(** X1: the per-day frame has one row per day, in strictly ascending date
    order. *)
Theorem daily_aggregates_dates_ascending :
  forall (V : Type) (A : Additive V) (df : DataFrame V),
    StronglySorted Z.lt (map date (daily_aggregates df)).
Proof.
  intros V A df. rewrite daily_aggregates_groups, map_map. simpl.
  rewrite map_id. apply group_keys_sorted.
Qed.


(** X3: readings of another value type never influence the total, the
    per-day frame, the per-asset frame or the anomaly records: each is
    unchanged when those readings are removed from the frame. *)
Theorem rollups_ignore_other_value_types :
  forall df : DataFrame float,
    calc_total_kwh (filter is_electricity df) = calc_total_kwh df
    /\ daily_aggregates (filter is_electricity df) = daily_aggregates df
    /\ asset_aggregates (filter is_electricity df) = asset_aggregates df
    /\ anomaly_records (filter is_electricity df) = anomaly_records df.
Proof.
  intros df. split; [|split; [|split]].
  - unfold calc_total_kwh. rewrite filter_idempotent.
    destruct df as [|r0 df]; [reflexivity|]. change (empty (r0 :: df)) with false.
    destruct (filter is_electricity (r0 :: df)); reflexivity.
  - now rewrite !daily_aggregates_groups, filter_idempotent.
  - now rewrite !asset_aggregates_sort, !asset_sums_groups, filter_idempotent.
  - now rewrite !anomaly_records_groups, filter_idempotent.
Qed.




Lemma StronglySorted_app_cross {A : Type} (P : A -> A -> Prop) (l1 l2 : list A) :
  StronglySorted P (l1 ++ l2) -> forall a b, In a l1 -> In b l2 -> P a b.
Proof.
  induction l1 as [|x l1 IH]; simpl; intros Hs a b Ha Hb; [contradiction|].
  inversion Hs as [|? ? Hs' Hall]; subst. destruct Ha as [->|Ha].
  - rewrite Forall_forall in Hall. apply Hall, in_or_app. now right.
  - now apply IH.
Qed.

(** X6: the "Top 10" chart shows at most ten assets, and no asset left out
    of it has a larger sum than an asset shown. *)
Theorem top10_holds_the_largest :
  forall (df : DataFrame float) (a b : asset_row float),
    In a (top10 df) -> In b (skipn 10 (asset_aggregates df)) ->
    (List.length (top10 df) <= 10)%nat
    /\ (PrimFloat.is_nan (total_kWh b) = true
        \/ (total_kWh b <=? total_kWh a)%float = true).
Proof.
  intros df a b Ha Hb. split; [apply firstn_le_length|].
  assert (Hs : StronglySorted (fun x y => descending total_kWh x y = true)
                 (firstn 10 (asset_aggregates df) ++ skipn 10 (asset_aggregates df))).
  { rewrite firstn_skipn, asset_aggregates_sort.
    apply sort_values_sorted; [apply descending_total|apply descending_trans]. }
  pose proof (StronglySorted_app_cross _ _ _ Hs a b Ha Hb) as Hab.
  unfold descending in Hab. now apply orb_true_iff in Hab.
Qed.

(* ================================================================== *)
(** * Binary64: sums and products of numbers that are not negative *)
(* ================================================================== *)

Lemma shr_1_nonneg (mrs : shr_record) : 0 <= shr_m mrs -> 0 <= shr_m (shr_1 mrs).
Proof.
  destruct mrs as [m r s']. simpl.
  destruct m as [|p|p]; [simpl; lia| |lia].
  destruct p; simpl; lia.
Qed.

Lemma iter_pos_invariant {A : Type} (f : A -> A) (P : A -> Prop) :
  (forall x, P x -> P (f x)) -> forall n x, P x -> P (SpecFloat.iter_pos f n x).
Proof.
  intros Hf. induction n as [n IH|n IH|]; simpl; intros x Hx; auto.
Qed.

Lemma shr_fexp_nonneg (m e : Z) (l : location) :
  0 <= m -> 0 <= shr_m (fst (shr_fexp prec emax m e l)).
Proof.
  intros Hm. unfold shr_fexp, shr.
  assert (H0 : 0 <= shr_m (shr_record_of_loc m l)).
  { destruct l as [|[]]; simpl; exact Hm. }
  destruct (fexp prec emax (Zdigits2 m + e) - e) as [|p|p]; simpl; trivial.
  apply iter_pos_invariant with (P := fun mrs => 0 <= shr_m mrs); trivial.
  apply shr_1_nonneg.
Qed.

Lemma round_nearest_even_nonneg (m : Z) (l : location) :
  0 <= m -> 0 <= round_nearest_even m l.
Proof.
  intros Hm. destruct l as [|[]]; simpl; try lia.
  destruct (Z.even m); lia.
Qed.

Lemma binary_round_aux_nonneg (m e : Z) (l : location) :
  0 <= m -> nonneg (binary_round_aux prec emax false m e l) = true.
Proof.
  intros Hm. unfold binary_round_aux.
  pose proof (shr_fexp_nonneg m e l Hm) as H1.
  destruct (shr_fexp prec emax m e l) as [mrs' e']. simpl in H1.
  pose proof (shr_fexp_nonneg _ e' loc_Exact
                (round_nearest_even_nonneg _ (loc_of_shr_record mrs') H1)) as H2.
  destruct (shr_fexp prec emax _ e' loc_Exact) as [mrs'' e'']. simpl in H2.
  destruct (shr_m mrs'') as [|p|p]; [reflexivity| |lia].
  destruct (e'' <=? _); reflexivity.
Qed.

Lemma binary_round_nonneg (m : positive) (e : Z) :
  nonneg (binary_round prec emax false m e) = true.
Proof.
  unfold binary_round. destruct (shl_align m e _) as [mz ez].
  apply binary_round_aux_nonneg. lia.
Qed.

Lemma SFadd_nonneg (x y : spec_float) :
  nonneg x = true -> nonneg y = true -> nonneg (SF64add x y) = true.
Proof.
  unfold SF64add.
  destruct x as [sx|sx| |sx mx ex], y as [sy|sy| |sy my ey]; simpl;
    intros Hx Hy; try discriminate; trivial;
    try (destruct sx; try destruct sy; simpl in *; (reflexivity || discriminate)).
  destruct sx, sy; try discriminate. unfold cond_Zopp.
  change (Z.pos ?a + Z.pos ?b) with (Z.pos (a + b)).
  apply binary_round_nonneg.
Qed.

Lemma SFmul_nonneg (x : spec_float) (m : positive) (e : Z) :
  nonneg x = true -> nonneg (SF64mul x (S754_finite false m e)) = true.
Proof.
  unfold SF64mul. destruct x as [sx|sx| |sx mx ex]; simpl; intros Hx;
    try discriminate; try (destruct sx; simpl in *; (reflexivity || discriminate)).
  destruct sx; [discriminate|]. apply binary_round_aux_nonneg. lia.
Qed.

Lemma leb_zero_nonneg (x : float) :
  (0 <=? x)%float = nonneg (Prim2SF x).
Proof.
  rewrite FloatAxioms.leb_spec. change (Prim2SF 0) with (S754_zero false).
  destruct (Prim2SF x) as [s|[]| |[] m e]; reflexivity.
Qed.

Lemma add_nonneg (x y : float) :
  (0 <=? x)%float = true -> (0 <=? y)%float = true -> (0 <=? x + y)%float = true.
Proof.
  rewrite !leb_zero_nonneg, FloatAxioms.add_spec. apply SFadd_nonneg.
Qed.

Lemma fold_add_nonneg (xs : list float) (acc : float) :
  (0 <=? acc)%float = true ->
  Forall (fun v => (0 <=? v)%float = true) xs ->
  (0 <=? fold_left PrimFloat.add xs acc)%float = true.
Proof.
  revert acc. induction xs as [|x xs IH]; simpl; intros acc Hacc Hall; [exact Hacc|].
  inversion Hall as [|? ? Hx Hxs]; subst.
  apply IH; [|exact Hxs]. now apply add_nonneg.
Qed.

Lemma Series_sum_nonneg (xs : list float) :
  Forall (fun v => (0 <=? v)%float = true) xs ->
  (0 <=? Series_sum xs)%float = true.
Proof. apply fold_add_nonneg. reflexivity. Qed.

(** X9: when no electricity reading is negative (or not a number), neither
    the total nor the emissions figure is. *)
Theorem total_and_emissions_not_negative :
  forall df : DataFrame float,
    (forall r, In r df -> is_electricity r = true -> (0 <=? value r)%float = true) ->
    (0 <=? calc_total_kwh df)%float = true
    /\ (0 <=? emissions df)%float = true.
Proof.
  intros df Hpos.
  assert (Ht : (0 <=? calc_total_kwh df)%float = true).
  { unfold calc_total_kwh. destruct (empty df); [reflexivity|].
    apply Series_sum_nonneg. rewrite Forall_map, Forall_forall.
    intros r Hr. apply filter_In in Hr. destruct Hr as (Hr & He). auto. }
  split; [exact Ht|].
  unfold emissions, calc_emissions_kg, factor_default.
  rewrite leb_zero_nonneg, FloatAxioms.mul_spec.
  rewrite leb_zero_nonneg in Ht.
  change (Prim2SF 0.82) with (S754_finite false 7385903388887613 (-53)).
  now apply SFmul_nonneg.
Qed.

Lemma total_and_emissions_not_negative_witness :
  (0 <=? calc_total_kwh rounding_frame)%float = true
  /\ (0 <=? emissions rounding_frame)%float = true.
Proof.
  apply (total_and_emissions_not_negative rounding_frame).
  intros r [<-|[<-|[<-|[]]]] _; reflexivity.
Defined.

(** The witness of X6: asset 111 is in the chart, asset 101 is the one left
    out. *)
Lemma top10_holds_the_largest_witness :
  (total_kWh (mkAsset 101 1%float) <=? total_kWh (mkAsset 111 11%float))%float = true.
Proof.
  destruct (top10_holds_the_largest eleven_assets
              (mkAsset 111 11%float) (mkAsset 101 1%float)) as (_ & [Hn|Hle]).
  - vm_compute. left. reflexivity.
  - vm_compute. left. reflexivity.
  - vm_compute in Hn. discriminate.
  - exact Hle.
Defined.

(* ================================================================== *)
(** * Further properties of the anomaly scan and the forecast panel *)
(* ================================================================== *)

Lemma StronglySorted_app {A : Type} (P : A -> A -> Prop) (l1 l2 : list A) :
  StronglySorted P l1 -> StronglySorted P l2 ->
  (forall a b, In a l1 -> In b l2 -> P a b) ->
  StronglySorted P (l1 ++ l2).
Proof.
  induction 1 as [|x l1 Hs IH Hall]; simpl; intros H2 Hcross; [exact H2|].
  constructor.
  - apply IH; [exact H2|]. intros a b Ha Hb. apply Hcross; [now right|exact Hb].
  - apply Forall_app. split; [exact Hall|].
    apply Forall_forall. intros b Hb. apply Hcross; [now left|exact Hb].
Qed.

Lemma constant_sorted (k : Z) (l : list Z) :
  (forall x, In x l -> x = k) -> StronglySorted Z.le l.
Proof.
  induction l as [|x l IH]; intros Hall; constructor.
  - apply IH. intros y Hy. apply Hall. now right.
  - apply Forall_forall. intros y Hy.
    rewrite (Hall x) by now left. rewrite (Hall y) by now right. lia.
Qed.

Lemma scan_group_asset (k : Z) (g : list (reading float)) (x : Z) :
  In x (map an_asset_id (scan_group k g)) -> x = k.
Proof.
  rewrite in_map_iff. intros (rec & <- & Hrec).
  apply scan_group_In in Hrec. destruct Hrec as (_ & r & _ & _ & ->). reflexivity.
Qed.

Lemma scan_groups_sorted (G : Z -> list (reading float)) (ks : list Z) :
  StronglySorted Z.lt ks ->
  StronglySorted Z.le
    (map an_asset_id
         (flat_map (fun kg => scan_group (fst kg) (snd kg))
                   (map (fun k => (k, G k)) ks)))
  /\ forall x, In x (map an_asset_id
                      (flat_map (fun kg => scan_group (fst kg) (snd kg))
                                (map (fun k => (k, G k)) ks))) -> In x ks.
Proof.
  induction 1 as [|k ks Hs IH Hall]; simpl.
  - split; [constructor|tauto].
  - destruct IH as (IHs & IHin). rewrite map_app. split.
    + apply StronglySorted_app; [|exact IHs|].
      * apply (constant_sorted k). apply scan_group_asset.
      * intros a b Ha Hb. apply scan_group_asset in Ha. subst a.
        apply IHin in Hb. rewrite Forall_forall in Hall.
        specialize (Hall _ Hb). lia.
    + intros x Hx. apply in_app_or in Hx. destruct Hx as [Hx|Hx].
      * left. symmetry. now apply scan_group_asset in Hx.
      * right. now apply IHin.
Qed.

(** X7: the anomaly records come asset by asset, in ascending order of the
    asset identifier. *)
Theorem anomaly_records_by_ascending_asset :
  forall df : DataFrame float,
    StronglySorted Z.le (map an_asset_id (anomaly_records df)).
Proof.
  intros df. rewrite anomaly_records_groups. unfold groupby.
  apply scan_groups_sorted, group_keys_sorted.
Qed.

(** X8: the forecast panel never lets an exception out.  With the library
    imported and the box checked, an error of the model is shown as
    "Prophet error: ..."; with the box unchecked the moving average is
    used even though the library is there. *)
Theorem forecast_panel_never_raises :
  forall (imp : prophet_import) (checkbox : bool)
         (daily : list (daily_row float)) (days_out : nat),
    (exists view, forecast_panel imp checkbox daily days_out = Ok view)
    /\ (forall Prophet e,
          imp = Imported Prophet -> checkbox = true -> daily <> [] ->
          Prophet (sort_index (map (fun r => (date r, daily_kWh r)) daily)) days_out
            = Raise e ->
          forecast_panel imp checkbox daily days_out
            = Ok (ForecastError ("Prophet error: " ++ e)))
    /\ (checkbox = false -> daily <> [] ->
          forecast_panel imp checkbox daily days_out
            = Ok (MovingAveragePlot
                    (sort_index (map (fun r => (date r, daily_kWh r)) daily))
                    (simple_moving_average_forecast
                       (sort_index (map (fun r => (date r, daily_kWh r)) daily))
                       days_out 3))).
Proof.
  intros imp checkbox daily days_out. split; [|split].
  - unfold forecast_panel. destruct (empty daily); [eexists; reflexivity|].
    cbv zeta.
    destruct (PROPHET_AVAILABLE imp && use_prophet imp checkbox);
      [|eexists; reflexivity].
    destruct (prophet_forecast imp _ days_out); eexists; reflexivity.
  - intros Prophet e -> -> Hne Hraise. unfold forecast_panel.
    destruct daily as [|d daily]; [now elim Hne|].
    change (empty (d :: daily)) with false. cbv iota zeta.
    simpl PROPHET_AVAILABLE. unfold use_prophet. simpl PROPHET_AVAILABLE.
    cbv iota. simpl andb. cbv iota. unfold prophet_forecast. now rewrite Hraise.
  - intros -> Hne. unfold forecast_panel, use_prophet.
    destruct daily as [|d daily]; [now elim Hne|].
    change (empty (d :: daily)) with false. cbv iota zeta.
    destruct (PROPHET_AVAILABLE imp); reflexivity.
Qed.

Lemma forecast_panel_never_raises_witness :
  forecast_panel failing_prophet true (daily_aggregates rounding_frame) 14
  = Ok (ForecastError "Prophet error: Dataframe has less than 2 non-NaN rows.").
Proof.
  refine (proj1 (proj2 (forecast_panel_never_raises failing_prophet true
                          (daily_aggregates rounding_frame) 14)) _ _ eq_refl eq_refl _ _).
  - vm_compute. discriminate.
  - reflexivity.
Defined.

(* ================================================================== *)
(** * Properties of the loading query *)
(* ================================================================== *)




(** X11: a site identifier 0 is read as "no site" (like [None] and "All"),
    and a selected site that owns no asset gives the empty frame rather
    than every reading. *)
Theorem telemetry_df_site_edge_cases :
  forall (to_datetime : string -> Timestamp) (assets : list asset_doc)
         (telemetry : list telemetry_doc) (start end_ : option string),
    telemetry_df to_datetime assets telemetry (SiteId 0) start end_
      = telemetry_df to_datetime assets telemetry SiteNone start end_
    /\ telemetry_df to_datetime assets telemetry SiteAll start end_
      = telemetry_df to_datetime assets telemetry SiteNone start end_
    /\ (forall id, id <> 0 -> site_asset_ids assets id = [] ->
          telemetry_df to_datetime assets telemetry (SiteId id) start end_ = []).
Proof.
  intros to_datetime assets telemetry start end_.
  split; [reflexivity|split; [reflexivity|]].
  intros id Hid Hnone. unfold telemetry_df, telemetry_query. simpl site_selected.
  destruct (Z.eqb_spec id 0) as [E|_]; [contradiction|].
  rewrite Hnone. simpl empty. cbv iota.
  replace (filter _ telemetry) with (@nil telemetry_doc); [reflexivity|].
  symmetry. induction telemetry as [|d l IH]; simpl; [reflexivity|exact IH].
Qed.

Lemma telemetry_df_site_edge_cases_witness :
  telemetry_df (fun _ => mkTimestamp 0 0) sample_assets sample_telemetry
               (SiteId 3) None None = []
  /\ List.length (telemetry_df (fun _ => mkTimestamp 0 0) sample_assets
                               sample_telemetry (SiteId 0) None None) = 3%nat.
Proof.
  split; [|reflexivity].
  apply (proj2 (proj2 (telemetry_df_site_edge_cases (fun _ => mkTimestamp 0 0)
                         sample_assets sample_telemetry None None)) 3).
  - discriminate.
  - reflexivity.
Defined.

(* ================================================================== *)
(** * Properties of the index helper and the provider panel *)
(* ================================================================== *)



(** X12: the helper looks at the field of an index key, not at its kind.
    When some index has a key on [location] and none of them is a 2dsphere
    key, the helper answers "2dsphere index already exists", creates
    nothing, and the collection still has no 2dsphere index on
    [location]. *)
Theorem create_2dsphere_index_trusts_any_location_key :
  forall idx : indexes,
    has_location_key idx = true ->
    has_2dsphere_location idx = false ->
    exists idx',
      create_2dsphere_index idx = Ok ("2dsphere index already exists"%string, idx')
      /\ idx' = idx
      /\ has_2dsphere_location idx' = false.
Proof.
  intros idx Hloc Hno. exists idx. unfold create_2dsphere_index.
  rewrite Hloc. auto.
Qed.

Lemma create_2dsphere_index_trusts_any_location_key_witness :
  create_2dsphere_index ascending_location_index
    = Ok ("2dsphere index already exists"%string, ascending_location_index)
  /\ has_2dsphere_location ascending_location_index = false.
Proof.
  destruct (create_2dsphere_index_trusts_any_location_key ascending_location_index
              eq_refl eq_refl) as (idx' & Hc & -> & Hno).
  split; [exact Hc|exact Hno].
Defined.



Lemma provider_rows_In (provs : list provider) (row : provider_row) :
  In row (provider_rows provs) <->
  exists p, In p provs /\ provider_to_row p = Some row.
Proof.
  unfold provider_rows. rewrite in_flat_map. split.
  - intros (p & Hp & Hrow). exists p. split; [exact Hp|].
    destruct (provider_to_row p); simpl in Hrow; [|contradiction].
    destruct Hrow as [->|[]]. reflexivity.
  - intros (p & Hp & E). exists p. split; [exact Hp|]. rewrite E. now left.
Qed.

(** X14: the provider panel plots a point for exactly the providers whose
    coordinates are a list of at least two numbers, with the latitude taken
    from the second number and the longitude from the first; it shows the
    map when there is such a provider and a note otherwise, and its table
    has at most ten rows. *)
Theorem provider_panel_points :
  forall provs : list provider,
    (forall la lo,
        In (la, lo) (map (fun r => (lat r, lon r)) (provider_rows provs)) <->
        exists p rest,
          In p provs /\ p_location p = Some (Some (CoordList (lo :: la :: rest))))
    /\ ((exists p x0 x1 rest,
           In p provs /\ p_location p = Some (Some (CoordList (x0 :: x1 :: rest)))) ->
        exists table,
          provider_panel provs
            = ProviderMap (map (fun r => (lat r, lon r)) (provider_rows provs)) table
          /\ (List.length table <= 10)%nat)
    /\ ((forall p x0 x1 rest,
           In p provs -> p_location p <> Some (Some (CoordList (x0 :: x1 :: rest)))) ->
        exists msg, provider_panel provs = ProviderInfo msg).
Proof.
  intros provs.
  assert (Hrow : forall p row,
            provider_to_row p = Some row <->
            exists x0 x1 rest,
              p_location p = Some (Some (CoordList (x0 :: x1 :: rest)))
              /\ row = mkProviderRow
                         (match p_name p with Some n => n | None => ""%string end)
                         (match p_type p with Some t => t | None => ""%string end)
                         x1 x0).
  { intros p row. unfold provider_to_row.
    destruct (p_location p) as [[[[|x0 [|x1 rest]]|]|]|]; split;
      try discriminate;
      try (intros (? & ? & ? & E & _); discriminate).
    - intros [= <-]. exists x0, x1, rest. auto.
    - intros (y0 & y1 & r' & [= -> -> ->] & ->). reflexivity. }
  split; [|split].
  - intros la lo. rewrite in_map_iff. split.
    + intros (row & [= <- <-] & Hin). apply provider_rows_In in Hin.
      destruct Hin as (p & Hp & E). apply Hrow in E.
      destruct E as (x0 & x1 & rest & Hloc & ->). simpl. eauto.
    + intros (p & rest & Hp & Hloc).
      eexists. split; [|apply provider_rows_In; exists p; split;
                         [exact Hp|apply Hrow; eauto]].
      reflexivity.
  - intros (p & x0 & x1 & rest & Hp & Hloc).
    assert (Hin : In (mkProviderRow
                        (match p_name p with Some n => n | None => ""%string end)
                        (match p_type p with Some t => t | None => ""%string end)
                        x1 x0) (provider_rows provs)).
    { apply provider_rows_In. exists p. split; [exact Hp|]. apply Hrow. eauto. }
    unfold provider_panel.
    destruct provs as [|p0 provs]; [contradiction|].
    change (empty (p0 :: provs)) with false. cbv iota zeta.
    destruct (provider_rows (p0 :: provs)) as [|r0 rows]; [contradiction|].
    change (empty (r0 :: rows)) with false. cbv iota.
    eexists. split; [reflexivity|]. apply firstn_le_length.
  - intros Hnone. unfold provider_panel.
    destruct (empty provs); [eexists; reflexivity|]. cbv zeta.
    destruct (provider_rows provs) as [|r0 rows] eqn:E; [eexists; reflexivity|].
    exfalso.
    assert (Hin : In r0 (provider_rows provs)) by (rewrite E; now left).
    apply provider_rows_In in Hin. destruct Hin as (p & Hp & Er).
    apply Hrow in Er. destruct Er as (x0 & x1 & rest & Hloc & _).
    exact (Hnone p x0 x1 rest Hp Hloc).
Qed.

Lemma provider_panel_points_witness :
  exists table,
    provider_panel sample_providers = ProviderMap [(21.25%float, 81.63%float)] table.
Proof.
  destruct (proj1 (proj2 (provider_panel_points sample_providers))) as (table & E & _).
  - eexists _, _, _, _. split; [left; reflexivity|reflexivity].
  - exists table. exact E.
Defined.

(* ================================================================== *)
(** * Properties of the aggregation script as a whole *)
(* ================================================================== *)

(** The six pipelines run against [telemetry], in script order. *)
Lemma telemetry_section_run (db : Store) (n : nat) (title : string) (p : pipeline)
    (out : list output) :
  telemetry_section db n title p out =
  match telemetry_aggregate db p with
  | Ok r => (out ++ [Header n title] ++ [Repr r], Ok tt)
  | Raise e => (out ++ [Header n title], Raise e)
  end.
Proof.
  unfold telemetry_section, bind, print, call.
  destruct (telemetry_aggregate db p); simpl; [now rewrite <- app_assoc|reflexivity].
Qed.

Lemma geo_section_returns (db : Store) (out : list output) :
  snd (geo_section db out) = Ok tt
  /\ exists tail, fst (geo_section db out)
                  = out ++ Header 7 "Nearest Recycling / Service Provider:" :: tail.
Proof.
  rewrite geo_section_handles.
  destruct (service_providers_aggregate db); simpl; split; trivial; eexists; reflexivity.
Qed.

(** X15: only the telemetry queries can stop the script.  It ends normally
    exactly when the six telemetry aggregations answer, whether or not the
    provider query succeeds; otherwise it ends with the error of a
    telemetry aggregation, and the provider section, which comes last, has
    not run. *)
Theorem aggregation_queries_stops_only_on_telemetry :
  forall db : Store,
    (snd (aggregation_queries db) = Ok tt <->
     forall p, p <> pipeline_geo -> exists docs, telemetry_aggregate db p = Ok docs)
    /\ (forall e, snd (aggregation_queries db) = Raise e ->
          (exists p, p <> pipeline_geo /\ telemetry_aggregate db p = Raise e)
          /\ ~ In (Header 7 "Nearest Recycling / Service Provider:")
                  (fst (aggregation_queries db))).
Proof.
  intros db. unfold aggregation_queries, telemetry_sections.
  assert (Hgeo : forall out, snd (geo_section db out) = Ok tt)
    by (intros out; apply geo_section_returns).
  unfold bind. rewrite !telemetry_section_run.
  destruct (telemetry_aggregate db pipeline_total) as [r1|e1] eqn:E1;
    [|split; [split; [discriminate|intros H; destruct (H pipeline_total) as (? & E);
                                    [discriminate|congruence]]
             |intros e [= <-]; split; [exists pipeline_total; split; [discriminate|exact E1]
                                      |simpl; intros [H|[]]; discriminate]]].
  rewrite !telemetry_section_run.
  destruct (telemetry_aggregate db pipeline_asset) as [r2|e2] eqn:E2;
    [|split; [split; [discriminate|intros H; destruct (H pipeline_asset) as (? & E);
                                    [discriminate|congruence]]
             |intros e [= <-]; split; [exists pipeline_asset; split; [discriminate|exact E2]
                                      |simpl; intuition discriminate]]].
  rewrite !telemetry_section_run.
  destruct (telemetry_aggregate db pipeline_avg) as [r3|e3] eqn:E3;
    [|split; [split; [discriminate|intros H; destruct (H pipeline_avg) as (? & E);
                                    [discriminate|congruence]]
             |intros e [= <-]; split; [exists pipeline_avg; split; [discriminate|exact E3]
                                      |simpl; intuition discriminate]]].
  rewrite !telemetry_section_run.
  destruct (telemetry_aggregate db pipeline_daily) as [r4|e4] eqn:E4;
    [|split; [split; [discriminate|intros H; destruct (H pipeline_daily) as (? & E);
                                    [discriminate|congruence]]
             |intros e [= <-]; split; [exists pipeline_daily; split; [discriminate|exact E4]
                                      |simpl; intuition discriminate]]].
  rewrite !telemetry_section_run.
  destruct (telemetry_aggregate db pipeline_spike) as [r5|e5] eqn:E5;
    [|split; [split; [discriminate|intros H; destruct (H pipeline_spike) as (? & E);
                                    [discriminate|congruence]]
             |intros e [= <-]; split; [exists pipeline_spike; split; [discriminate|exact E5]
                                      |simpl; intuition discriminate]]].
  rewrite !telemetry_section_run.
  destruct (telemetry_aggregate db pipeline_emission) as [r6|e6] eqn:E6;
    [|split; [split; [discriminate|intros H; destruct (H pipeline_emission) as (? & E);
                                    [discriminate|congruence]]
             |intros e [= <-]; split; [exists pipeline_emission; split; [discriminate|exact E6]
                                      |simpl; intuition discriminate]]].
  split.
  - split; [|intros _; apply Hgeo].
    intros _ p Hp. destruct p; eauto. contradiction.
  - intros e He. rewrite Hgeo in He. discriminate.
Qed.

Lemma aggregation_queries_stops_only_on_telemetry_witness :
  snd (aggregation_queries store_without_index) = Ok tt.
Proof.
  apply (proj1 (aggregation_queries_stops_only_on_telemetry store_without_index)).
  intros p _. eexists. reflexivity.
Defined.

(** ** Average reading with a positive count *)



(* ================================================================== *)
(** * Row order and the site selector *)
(* ================================================================== *)

(** Keeping the rows that pass a mask commutes with reordering the frame. *)
Lemma mask_of_permuted {A : Type} (keep : A -> bool) (rows rows' : list A)
    (Hperm : Permutation rows rows') :
  Permutation (filter keep rows) (filter keep rows').
Proof.
  induction Hperm as [|x l l' _ IH|x y l|l l' l'' _ IH1 _ IH2]; simpl.
  - constructor.
  - destruct (keep x); [now constructor|exact IH].
  - destruct (keep x), (keep y); try reflexivity. apply perm_swap.
  - now transitivity (filter keep l').
Qed.

(** A strictly ascending list is determined by its elements. *)
Lemma sorted_keys_unique (l1 l2 : list Z) :
  StronglySorted Z.lt l1 -> StronglySorted Z.lt l2 ->
  (forall x, In x l1 <-> In x l2) -> l1 = l2.
Proof.
  intros H1. revert l2. induction H1 as [|a l1 Hs1 IH Ha]; intros l2 H2 Hin.
  - destruct l2 as [|b l2]; [reflexivity|]. destruct (proj2 (Hin b)). now left.
  - destruct H2 as [|b l2 Hs2 Hb]; [destruct (proj1 (Hin a)); now left|].
    rewrite Forall_forall in Ha, Hb.
    assert (a = b).
    { destruct (proj1 (Hin a) (or_introl eq_refl)) as [E|Hab]; [now subst|].
      destruct (proj2 (Hin b) (or_introl eq_refl)) as [E|Hba]; [now subst|].
      specialize (Ha _ Hba). specialize (Hb _ Hab). lia. }
    subst b. f_equal. apply IH; [exact Hs2|].
    intros x. split; intros Hx.
    + destruct (proj1 (Hin x) (or_intror Hx)) as [E|Hx2]; [|exact Hx2].
      subst x. specialize (Ha _ Hx). lia.
    + destruct (proj2 (Hin x) (or_intror Hx)) as [E|Hx1]; [|exact Hx1].
      subst x. specialize (Hb _ Hx). lia.
Qed.

(** X17: in exact arithmetic the total and the per-day frame do not depend
    on the order in which the store returned the documents. *)
Theorem rollups_independent_of_row_order_exact :
  forall (V : Type) (A : Additive V) (E : ExactAdditive V) (df df' : DataFrame V),
    Permutation df df' ->
    calc_total_kwh df = calc_total_kwh df'
    /\ daily_aggregates df = daily_aggregates df'.
Proof.
  intros V A E df df' Hperm.
  pose proof (mask_of_permuted is_electricity _ _ Hperm) as Hf.
  split.
  - unfold calc_total_kwh.
    rewrite (Series_sum_perm _ _ (Permutation_map value Hf)).
    destruct df as [|r df], df' as [|r' df']; trivial.
    apply Permutation_nil in Hperm. discriminate.
  - rewrite !daily_aggregates_groups.
    set (key := fun r : reading V => dt_date (ts r)).
    assert (Hk : group_keys (map key (filter is_electricity df)) =
                 group_keys (map key (filter is_electricity df'))).
    { apply sorted_keys_unique; try apply group_keys_sorted.
      intros x. rewrite !group_keys_In.
      split; apply Permutation_in; [|symmetry]; now apply Permutation_map. }
    rewrite Hk. apply map_ext. intros k. f_equal.
    apply Series_sum_perm, Permutation_map, mask_of_permuted, Hf.
Qed.

Lemma rollups_independent_of_row_order_exact_witness :
  daily_aggregates (rev exact_frame) = daily_aggregates exact_frame.
Proof.
  apply (rollups_independent_of_row_order_exact Z Z_Additive Z_ExactAdditive).
  symmetry. apply Permutation_rev.
Defined.

Lemma site_map_get_app (sites sites' : list site_doc) (name : string) :
  site_map_get (sites ++ sites') name =
  match site_map_get sites' name with
  | Some id => Some id
  | None => site_map_get sites name
  end.
Proof.
  unfold site_map_get. rewrite fold_left_app.
  generalize (fold_left (fun found s => if String.eqb (s_name s) name
                                        then Some (s_site_id s) else found)
                        sites None).
  induction sites' as [|s sites' IH]; intros found; simpl.
  - reflexivity.
  - destruct (String.eqb (s_name s) name); [|exact (IH found)].
    rewrite (IH (Some (s_site_id s))).
    destruct (fold_left _ sites' None); reflexivity.
Qed.

Lemma site_map_get_none (sites : list site_doc) (name : string) :
  (forall s, In s sites -> s_name s <> name) -> site_map_get sites name = None.
Proof.
  induction sites as [|s sites IH] using rev_ind; intros Hno; [reflexivity|].
  rewrite site_map_get_app. unfold site_map_get at 1. simpl.
  destruct (String.eqb_spec (s_name s) name) as [E|_].
  - exfalso. apply (Hno s); [apply in_or_app; right; now left|exact E].
  - apply IH. intros s' Hs'. apply Hno, in_or_app. now left.
Qed.

(** X18: the site selector.  A chosen name that no site carries (the entry
    "All", when no site is called "All") selects no site; a name that sites
    carry selects the identifier of the last of them, so a site that is
    itself called "All" takes over the "All" entry. *)
Theorem chosen_site_by_name :
  forall (sites : list site_doc) (name : string),
    ((forall s, In s sites -> s_name s <> name) -> chosen_site sites name = SiteNone)
    /\ (forall before s after,
          sites = before ++ s :: after -> s_name s = name ->
          (forall s', In s' after -> s_name s' <> name) ->
          chosen_site sites name = SiteId (s_site_id s)).
Proof.
  intros sites name. unfold chosen_site. split.
  - intros Hno. now rewrite site_map_get_none.
  - intros before s after -> Hname Hafter.
    change (s :: after) with ([s] ++ after).
    rewrite !site_map_get_app, (site_map_get_none after) by exact Hafter.
    unfold site_map_get at 1. simpl.
    apply String.eqb_eq in Hname. now rewrite Hname.
Qed.

Lemma chosen_site_by_name_witness :
  chosen_site sites_with_all "All" = SiteId 7.
Proof.
  refine (proj2 (chosen_site_by_name sites_with_all "All")
            [mkSite 1 "Raipur Plant"; mkSite 2 "Bhilai Warehouse"]
            (mkSite 7 "All") [] eq_refl eq_refl _).
  intros s' [].
Defined.
